(** * semtex utility scripts: [compose.py] and [wavy.py]

    A shallow embedding of the two Python scripts and the properties of
    their natural-language specification.

    - [Compose] embeds [python/compose.py], a Python 2 script made of
      top-level statements.  The script's global namespace is a finite map
      from names to values, so that reading a name that no statement ever
      binds raises [NameError], as in Python.  Console and file effects are
      recorded in a log.
    - [Wavy] embeds [python/wavy.py].  Mesh coordinates are generic in the
      arithmetic (class [Arith]), instantiated with IEEE binary64
      ([PrimFloat]), the arithmetic the script computes in. *)

From Stdlib Require Import ZArith List Ascii String Uint63 PrimFloat.
From stdpp Require Import base option list gmap strings pretty.

#[local] Open Scope Z_scope.
#[local] Open Scope string_scope.
#[local] Open Scope list_scope.

(* ===================================================================== *)
(** * compose.py *)
(* ===================================================================== *)

Module Compose.

(** ** Data of the field-file codec *)

(** Modelled from the spec: the module [fieldfile] imported by compose.py is
    not among the sources.  The header record follows the specification's
    data model: a geometry descriptor {nr, ns, nel, nz}, a field-name
    string, simulation time, step count and total element count. *)
Record geometry : Type := Geometry { nr : Z; ns : Z; nel : Z; nz : Z }.

Record header : Type := Header {
  hgeometry : geometry;
  fields : string;
  time : float;
  step : Z;
  ntot : Z
}.

Inductive fmode : Type := ModeR | ModeW.

(** Modelled from the spec: a [Fieldfile] object is a path opened in read or
    write mode that exposes its header ([.hdr]); [.ntot] and [.fields] are
    read through the header. *)
Record fieldfile : Type := Fieldfile {
  ff_path : string;
  ff_mode : fmode;
  hdr : header
}.

Definition set_fields (s : string) (h : header) : header :=
  Header (hgeometry h) s (time h) (step h) (ntot h).
Definition set_time (t : float) (h : header) : header :=
  Header (hgeometry h) (fields h) t (step h) (ntot h).
Definition set_step (n : Z) (h : header) : header :=
  Header (hgeometry h) (fields h) (time h) n (ntot h).
Definition set_hdr (h : header) (f : fieldfile) : fieldfile :=
  Fieldfile (ff_path f) (ff_mode f) h.

(** ** Values, exceptions, effects *)

(** Run-time values held by the script's global names.  Arrays live in a
    heap and are held by reference, as numpy arrays are. *)
Inductive value : Type :=
| VInt (n : Z)
| VStr (s : string)
| VStrs (l : list string)
| VFile (f : fieldfile)
| VArrays (l : list nat)
| VDict (d : gmap string nat).

Inductive exn : Type :=
| NameError (name : string)
| IndexError
| KeyError (key : string)
| TypeError
| EOFError
| IOError (path : string).

(** The class name Python reports for an exception. *)
Definition exn_class (e : exn) : string :=
  match e with
  | NameError _ => "NameError"
  | IndexError => "IndexError"
  | KeyError _ => "KeyError"
  | TypeError => "TypeError"
  | EOFError => "EOFError"
  | IOError _ => "IOError"
  end.

(** What a [print] statement is given.  The textual rendering of lists and
    of header objects is left to Python and to the codec. *)
Inductive printed : Type :=
| PStr (s : string)
| PStrs (l : list string)
| PHdr (h : header)
| PInt (n : Z).

Inductive event : Type :=
| EvPrint (p : printed)
| EvPrompt (s : string)
| EvErrMsg (s : string)
| EvOpenRead (path : string)
| EvOpenWrite (path : string) (h : header)
| EvWriteData (path : string) (arrays : list (list float)).

(** The state of a run: global names, array heap, the lines still to be
    read from standard input, the field files on disk that the codec can
    open and parse, the paths that can be created, and the effects so far
    (oldest first). *)
Record world : Type := World {
  globals : gmap string value;
  heap : gmap nat (list float);
  stdin : list string;
  disk : gmap string header;
  creatable : string → bool;
  log : list event
}.

Inductive result (A : Type) : Type :=
| Ok (a : A)
| Exit (code : Z)
| Raise (e : exn).
Arguments Ok {A} a.
Arguments Exit {A} code.
Arguments Raise {A} e.

(** State and error monad of the script. *)
Definition M (A : Type) : Type := world → result A * world.

#[global] Instance M_ret : MRet M := λ A a w, (Ok a, w).
#[global] Instance M_bind : MBind M := λ A B f m w,
  match m w with
  | (Ok a, w') => f a w'
  | (Exit c, w') => (Exit c, w')
  | (Raise e, w') => (Raise e, w')
  end.

Definition raise {A} (e : exn) : M A := λ w, (Raise e, w).
Definition sys_exit {A} (code : Z) : M A := λ w, (Exit code, w).

Definition emit (e : event) : M unit := λ w,
  (Ok tt, World (globals w) (heap w) (stdin w) (disk w) (creatable w) (log w ++ [e])).

(** Reading a global name: [NameError] when it is unbound. *)
Definition get_name (n : string) : M value := λ w,
  match globals w !! n with
  | Some v => (Ok v, w)
  | None => (Raise (NameError n), w)
  end.

Definition set_name (n : string) (v : value) : M unit := λ w,
  (Ok tt, World (<[n := v]> (globals w)) (heap w) (stdin w) (disk w) (creatable w) (log w)).

Definition as_int (v : value) : M Z :=
  match v with VInt n => mret n | _ => raise TypeError end.
Definition as_strs (v : value) : M (list string) :=
  match v with VStrs l => mret l | _ => raise TypeError end.
Definition as_file (v : value) : M fieldfile :=
  match v with VFile f => mret f | _ => raise TypeError end.
Definition as_arrays (v : value) : M (list nat) :=
  match v with VArrays l => mret l | _ => raise TypeError end.
Definition as_dict (v : value) : M (gmap string nat) :=
  match v with VDict d => mret d | _ => raise TypeError end.

(** [l[i]] on a list: [IndexError] out of range. *)
Definition index {A} (l : list A) (i : nat) : M A :=
  match l !! i with Some a => mret a | None => raise IndexError end.

(** [print x] *)
Definition print (p : printed) : M unit := emit (EvPrint p).

(** [raw_input()] and [raw_input(prompt)]: the prompt, if any, goes to
    standard output; the next line of standard input is returned without
    its newline; [EOFError] at end of input. *)
Definition raw_input (prompt : option string) : M string := λ w,
  let w1 := match prompt with
            | Some p => snd (emit (EvPrompt p) w)
            | None => w
            end in
  match stdin w1 with
  | line :: rest =>
      (Ok line, World (globals w1) (heap w1) rest (disk w1) (creatable w1) (log w1))
  | [] => (Raise EOFError, w1)
  end.

(** Modelled from the spec: [fieldfile.Fieldfile(path, "r")] opens a path in
    read mode and exposes its header; any failure to open or parse is
    fatal.  A path outside [disk] stands for a file that cannot be opened
    or parsed. *)
Definition Fieldfile_r (path : string) : M fieldfile := λ w,
  match disk w !! path with
  | Some h => (Ok (Fieldfile path ModeR h), snd (emit (EvOpenRead path) w))
  | None => (Raise (IOError path), w)
  end.

(** Modelled from the spec: [fieldfile.Fieldfile(path, "w", hdr)] opens a
    path in write mode (creating or overwriting the destination) and
    accepts a header object; an I/O error on open is fatal. *)
Definition Fieldfile_w (path : string) (h : header) : M fieldfile := λ w,
  if creatable w path
  then (Ok (Fieldfile path ModeW h), snd (emit (EvOpenWrite path h) w))
  else (Raise (IOError path), w).

(** Modelled from the spec: [ff_out.write(data)], the data write call of a
    file in write mode; the arrays are read through their references. *)
Definition Fieldfile_write (f : fieldfile) (arrays : list nat) : M unit := λ w,
  emit (EvWriteData (ff_path f) (omap (λ a, heap w !! a) arrays)) w.

(** ** [re.findall(r'\S+', s)] *)

(** Whitespace of the [re] module on byte strings: space, \t, \n, \v, \f,
    \r. *)
Definition is_space (c : ascii) : bool :=
  let n := nat_of_ascii c in
  ((n =? 32) || ((9 <=? n) && (n <=? 13)))%nat.

(** [tokens cur s]: the maximal runs of non-whitespace characters of [s],
    left to right; [cur] is the run being read, in reverse. *)
Fixpoint tokens (cur : list ascii) (s : string) : list string :=
  match s with
  | EmptyString =>
      match cur with
      | [] => []
      | _ => [string_of_list_ascii (rev cur)]
      end
  | String c s' =>
      if is_space c
      then match cur with
           | [] => tokens [] s'
           | _ => string_of_list_ascii (rev cur) :: tokens [] s'
           end
      else tokens (c :: cur) s'
  end.

Definition findall_nonspace (s : string) : list string := tokens [] s.


(** ** The script *)

(** Lines 28-31: the condition under which the two inputs do not conform. *)
Definition mismatch (g1 g2 : geometry) : bool :=
  negb (Z.eqb (nr g1) (nr g2)) || negb (Z.eqb (ns g1) (ns g2)) ||
  negb (Z.eqb (nz g1) (nz g2)) || negb (Z.eqb (nel g1) (nel g2)).

(** Lines 21-36: argument count, input files, conformance. *)
Definition open_inputs (argv : list string) : M unit :=
  if Nat.eqb (length argv) 2 then
    set_name "mode" (VInt 1) ;;
    a1 ← index argv 1; f1 ← Fieldfile_r a1; set_name "file1" (VFile f1)
  else if Nat.eqb (length argv) 3 then
    set_name "mode" (VInt 2) ;;
    a1 ← index argv 1; f1 ← Fieldfile_r a1; set_name "file1" (VFile f1) ;;
    a2 ← index argv 2; f2 ← Fieldfile_r a2; set_name "file2" (VFile f2) ;;
    f1 ← get_name "file1" ≫= as_file;
    f2 ← get_name "file2" ≫= as_file;
    if mismatch (hgeometry (hdr f1)) (hgeometry (hdr f2)) then
      print (PStr "The two input files do not conform") ;;
      sys_exit 1
    else mret tt
  else
    print (PStr "Usage: compose.py file.fld [anotherfile.fld]") ;;
    sys_exit 1.

(** Lines 38-44: field selection, single-file mode only. *)
Definition select_fields : M unit :=
  mode ← get_name "mode" ≫= as_int;
  if Z.eqb mode 1 then
    print (PStr "Input file contains these fields: indicate the ones you want:") ;;
    f1 ← get_name "file1" ≫= as_file;
    print (PStr (fields (hdr f1))) ;;
    line ← raw_input None;
    set_name "required_fields" (VStr line) ;;
    print (PStr line) ;;
    set_name "wanted" (VStrs (findall_nonspace line)) ;;
    wanted ← get_name "wanted" ≫= as_strs;
    print (PStrs wanted)
  else mret tt.

(** Lines 46-51: output file and its header. *)
Definition open_output : M unit :=
  outfile ← raw_input (Some "type in an output file name: ");
  set_name "outfile" (VStr outfile) ;;
  f1 ← get_name "file1" ≫= as_file;
  ofile ← Fieldfile_w outfile (hdr f1);
  set_name "ofile" (VFile ofile) ;;
  wanted ← get_name "wanted" ≫= as_strs;
  w0 ← index wanted 0;
  ofile ← get_name "ofile" ≫= as_file;
  set_name "ofile" (VFile (set_hdr (set_fields w0 (hdr ofile)) ofile)) ;;
  ofile ← get_name "ofile" ≫= as_file;
  print (PHdr (hdr ofile)) ;;
  print (PInt (ntot (hdr ofile))).

(** [for x in l: body] *)
Fixpoint for_each {A} (l : list A) (body : A → M unit) : M unit :=
  match l with
  | [] => mret tt
  | a :: l' => body a ;; for_each l' body
  end.

(** [enumerate] over the characters of a string. *)
Fixpoint enumerate_from (i : nat) (s : string) : list (nat * string) :=
  match s with
  | EmptyString => []
  | String c s' => (i, String c EmptyString) :: enumerate_from (S i) s'
  end.

(** [arr.fill(0.0)] on the array at reference [a]: in place. *)
Definition array_fill_zero (a : nat) : M unit := λ w,
  (Ok tt, World (globals w) (alter (λ arr, replicate (length arr) 0%float) a (heap w))
                (stdin w) (disk w) (creatable w) (log w)).

(** [data_dict[key].fill(0.0)] *)
Definition fill_zero (key : string) : M unit :=
  d ← get_name "data_dict" ≫= as_dict;
  match d !! key with
  | None => raise (KeyError key)
  | Some a => array_fill_zero a
  end.

(** Lines 55-74: the body of the loop over the fields. *)
Definition loop_body (i : nat) (field : string) : M unit :=
  data ← get_name "data" ≫= as_arrays;
  a ← index data i;
  d ← get_name "data_dict" ≫= as_dict;
  set_name "data_dict" (VDict (<[field := a]> d)) ;;
  ff ← get_name "ff" ≫= as_file;
  if negb (String.eqb (fields (hdr ff)) "uvcp") then
    emit (EvErrMsg "c2w.py: expected fields uvcp, found something else") ;;
    sys_exit 1
  else
    fill_zero "u" ;;
    fill_zero "v" ;;
    fill_zero "p" ;;
    ff ← get_name "ff" ≫= as_file;
    set_name "ff" (VFile (set_hdr (set_fields "uvwp" (hdr ff)) ff)) ;;
    ff ← get_name "ff" ≫= as_file;
    set_name "ff" (VFile (set_hdr (set_time 0%float (hdr ff)) ff)) ;;
    ff ← get_name "ff" ≫= as_file;
    set_name "ff" (VFile (set_hdr (set_step 0 (hdr ff)) ff)) ;;
    ff ← get_name "ff" ≫= as_file;
    ff_out ← Fieldfile_w "/dev/stdout" (hdr ff);
    set_name "ff_out" (VFile ff_out) ;;
    ff_out ← get_name "ff_out" ≫= as_file;
    data ← get_name "data" ≫= as_arrays;
    Fieldfile_write ff_out data.

(** Lines 53-74: [data_dict] and the loop over [enumerate(ff.fields)]. *)
Definition copy_loop : M unit :=
  set_name "data_dict" (VDict ∅) ;;
  ff ← get_name "ff" ≫= as_file;
  for_each (enumerate_from 0 (fields (hdr ff))) (λ '(i, field), loop_body i field).

Definition main (argv : list string) : M unit :=
  open_inputs argv ;;
  select_fields ;;
  open_output ;;
  copy_loop.

(** A fresh interpreter: no global bound, nothing done yet. *)
Definition init (input : list string) (files : gmap string header)
    (can_create : string → bool) : world :=
  World ∅ ∅ input files can_create [].

Definition run (argv input : list string) (files : gmap string header)
    (can_create : string → bool) : result unit * world :=
  main argv (init input files can_create).

(** Exit status of the interpreter: the argument of [sys.exit], 1 after an
    uncaught exception, 0 at the end of the script. *)
Definition exit_status {A} (r : result A) : Z :=
  match r with
  | Ok _ => 0
  | Exit code => code
  | Raise _ => 1
  end.

Definition is_OpenWrite (e : event) : bool :=
  match e with EvOpenWrite _ _ => true | _ => false end.
Definition is_WriteData (e : event) : bool :=
  match e with EvWriteData _ _ => true | _ => false end.

(** The header held by the global [ofile], if it is bound to a file. *)
Definition ofile_hdr (w : world) : option header :=
  match globals w !! "ofile" with
  | Some (VFile f) => Some (hdr f)
  | _ => None
  end.

(** What is observed of a run: how it ends, its effects, and the header of
    the output file object. *)
Definition observe (r : result unit * world) :
    result unit * list event * option header :=
  (r.1, log r.2, ofile_hdr r.2).

(** ** Closed forms of the runs

    The observations of a run by cases on its inputs; the lemmas
    [run_single] and [run_dual] prove that the script behaves so. *)

Definition single_prefix (f1 : string) (h1 : header) : list event :=
  [ EvOpenRead f1;
    EvPrint (PStr "Input file contains these fields: indicate the ones you want:");
    EvPrint (PStr (fields h1)) ].

Definition selection_events (line : string) : list event :=
  [ EvPrint (PStr line); EvPrint (PStrs (findall_nonspace line)) ].

Definition outfile_prompt : event := EvPrompt "type in an output file name: ".

Definition single_outcome (f1 : string) (file1 : option header)
    (input : list string) (can_create : string → bool) :
    result unit * list event * option header :=
  match file1 with
  | None => (Raise (IOError f1), [], None)
  | Some h1 =>
      match input with
      | [] => (Raise EOFError, single_prefix f1 h1, None)
      | [line] =>
          (Raise EOFError,
           single_prefix f1 h1 ++ selection_events line ++ [outfile_prompt], None)
      | line :: outfile :: _ =>
          let before := single_prefix f1 h1 ++ selection_events line ++ [outfile_prompt] in
          if can_create outfile then
            match findall_nonspace line with
            | [] => (Raise IndexError, before ++ [EvOpenWrite outfile h1], Some h1)
            | w0 :: _ =>
                (Raise (NameError "ff"),
                 before ++ [ EvOpenWrite outfile h1;
                             EvPrint (PHdr (set_fields w0 h1));
                             EvPrint (PInt (ntot h1)) ],
                 Some (set_fields w0 h1))
            end
          else (Raise (IOError outfile), before, None)
      end
  end.

Definition dual_outcome (f1 f2 : string) (file1 file2 : option header)
    (input : list string) (can_create : string → bool) :
    result unit * list event * option header :=
  match file1 with
  | None => (Raise (IOError f1), [], None)
  | Some h1 =>
      match file2 with
      | None => (Raise (IOError f2), [EvOpenRead f1], None)
      | Some h2 =>
          if mismatch (hgeometry h1) (hgeometry h2) then
            (Exit 1,
             [ EvOpenRead f1; EvOpenRead f2;
               EvPrint (PStr "The two input files do not conform") ],
             None)
          else
            match input with
            | [] => (Raise EOFError, [EvOpenRead f1; EvOpenRead f2; outfile_prompt], None)
            | outfile :: _ =>
                if can_create outfile then
                  (Raise (NameError "wanted"),
                   [ EvOpenRead f1; EvOpenRead f2; outfile_prompt;
                     EvOpenWrite outfile h1 ],
                   Some h1)
                else
                  (Raise (IOError outfile),
                   [EvOpenRead f1; EvOpenRead f2; outfile_prompt], None)
            end
      end
  end.

(** ** Vocabulary of the specification *)

(** The field names of a header: the characters of its field string. *)
Definition field_names (h : header) : list string :=
  map (λ c, String c EmptyString) (list_ascii_of_string (fields h)).

Definition field_present (h : header) (name : string) : bool :=
  existsb (String.eqb name) (field_names h).

(** The selection the specification speaks of: the whitespace-delimited
    names of the line, joined in the order entered. *)
Definition spec_selection (line : string) : string :=
  String.concat "" (findall_nonspace line).


(** ** Whitespace and tokens *)

(** A line made of whitespace only (the empty line included). *)
Definition all_space (s : string) : bool :=
  forallb is_space (list_ascii_of_string s).

(** A non-empty string without any whitespace character. *)
Definition is_token (t : string) : bool :=
  negb (String.eqb t "") &&
  forallb (λ c, negb (is_space c)) (list_ascii_of_string t).

Definition is_print (e : event) : bool :=
  match e with EvPrint _ => true | _ => false end.

(** What reaches standard output: the [print] statements and the prompt
    of [raw_input]. *)
Definition is_stdout (e : event) : bool :=
  match e with EvPrint _ | EvPrompt _ => true | _ => false end.

(** ** Sample inputs *)

(** A header of a small mesh with the given field string. *)
Definition sample_header (names : string) : header :=
  Header (Geometry 8 8 16 1) names 1.5%float 100 1024.

(** A disk holding one field file. *)
Definition sample_disk (path names : string) : gmap string header :=
  {[ path := sample_header names ]}.

Definition any_path : string → bool := λ _, true.

End Compose.

(* ===================================================================== *)
(** * wavy.py *)
(* ===================================================================== *)

Module Wavy.

(** ** Arithmetic *)

(** The operations wavy.py applies to coordinates: conversion of an
    integer, the four operations, and the constant [np.pi]. *)
Class Arith (F : Type) : Type := {
  of_Z : Z → F;
  fadd : F → F → F;
  fsub : F → F → F;
  fmul : F → F → F;
  fdiv : F → F → F;
  fpi : F
}.

(** IEEE binary64, round to nearest even: the arithmetic of Python floats
    and of numpy's float64.  [np.pi] is 0x1.921fb54442d18p+1.  The
    conversion of integers is the one of machine integers, for magnitudes
    below 2^63; the script converts 0, 1, 2, loop indices below 960 and
    powers of ten up to 1000. *)
#[global] Instance float_arith : Arith float := {
  of_Z := λ n, match n with
               | Z0 => 0%float
               | Zpos p => PrimFloat.of_uint63 (Uint63.of_Z (Zpos p))
               | Zneg p => PrimFloat.opp (PrimFloat.of_uint63 (Uint63.of_Z (Zpos p)))
               end;
  fadd := PrimFloat.add;
  fsub := PrimFloat.sub;
  fmul := PrimFloat.mul;
  fdiv := PrimFloat.div;
  fpi := 0x1.921fb54442d18p+1%float
}.

Definition nl : string := String (ascii_of_nat 10) EmptyString.

Section Samples.
Context {F : Type} `{Arith F}.

(** A decimal literal [n / 10^e], such as [0.075]: the quotient of two
    integers, which in binary64 is the correctly rounded literal. *)
Definition dec (n : Z) (e : nat) : F := fdiv (of_Z n) (of_Z (10 ^ Z.of_nat e)).

(** [np.linspace(start, stop, num=num)] with the end point: [arange(num) *
    step + start] with [step = (stop - start) / (num - 1)], and the last
    sample set to [stop] when [num > 1] (numpy's computation for a non-zero
    step). *)
Definition linspace (start stop : F) (num : nat) : list F :=
  let step := fdiv (fsub stop start) (of_Z (Z.of_nat num - 1)) in
  let y := map (λ i, fadd (fmul (of_Z (Z.of_nat i)) step) start) (seq 0 num) in
  if (1 <? num)%nat then <[(num - 1)%nat := stop]> y else y.

(** Lines 45-46: [x = np.linspace(0.0, 1.0, num=11)];
    [x = x * 2.0 * np.pi / beta_x]. *)
Definition x_samples (beta_x : F) : list F :=
  map (λ v, fdiv (fmul (fmul v (of_Z 2)) fpi) beta_x)
      (linspace (of_Z 0) (of_Z 1) 11).

(** Line 48: the fixed y locations. *)
Definition y_samples : list F :=
  [ of_Z 0; dec 75 3; dec 15 2; dec 25 2; dec 35 2; dec 45 2; dec 55 2;
    dec 65 2; dec 75 2; dec 84 2; dec 9 1; dec 945 3; dec 975 3; dec 993 3;
    of_Z 1 ].

End Samples.

(** ** Integers as text *)

(** [str(n)] for an integer. *)
Definition str_int (n : Z) : string := pretty n.

(** ['%5d' % n]: right-justified in a field of five characters, never
    truncated. *)
Definition fmt_5d (n : Z) : string :=
  let s := str_int n in
  string_of_list_ascii (replicate (5 - String.length s) " "%char) +:+ s.

(** [range(a, b)] *)
Definition range (a b : nat) : list Z := map Z.of_nat (seq a (b - a)).

(** ** The CURVES section (lines 103-125) *)

(** One [sfile.write] of the section. *)
Inductive chunk : Type :=
| Opening (number : Z)
| Curve (k : Z) (edge : Z) (side : Z) (i : Z)
| Blank
| Closing.

(** The text each write puts in the file. *)
Definition render (c : chunk) : string :=
  match c with
  | Opening number => nl +:+ "<CURVES NUMBER=" +:+ str_int number +:+ ">" +:+ nl
  | Curve k edge side i =>
      fmt_5d k +:+ fmt_5d edge +:+
      "  " +:+ str_int side +:+ " <SPLINE> wave" +:+ str_int i +:+ ".geo </SPLINE>" +:+ nl
  | Blank => nl
  | Closing => "</CURVES>" +:+ nl
  end.

(** The inner loop [for j in range(1, len(x))]: one curve per column,
    [k = k + 1] after each. *)
Definition curve_row (side : Z) (edge : Z → Z) (i : Z) (cols : list Z)
    (st : Z * list chunk) : Z * list chunk :=
  fold_left (λ st j, (st.1 + 1, (st.2 ++ [Curve st.1 (edge j) side i])%list)) cols st.

(** One pass [for i in rows]: the row's curves, then a blank line. *)
Definition curve_pass (side : Z) (edge : Z → Z → Z) (rows cols : list Z)
    (st : Z * list chunk) : Z * list chunk :=
  fold_left (λ st i,
               let st' := curve_row side (edge i) i cols st in
               (st'.1, (st'.2 ++ [Blank])%list))
            rows st.

(** The writes of the section for [len(x) = nx] and [len(y) = ny]. *)
Definition curves (nx ny : nat) : list chunk :=
  let lx := Z.of_nat nx in
  let ly := Z.of_nat ny in
  let st0 := (1, [Opening ((lx - 1) * (2 * (ly - 2) + 1))]) in
  let st1 := curve_pass 3 (λ i j, (i - 1) * (lx - 1) + j)
                        (range 1 ny) (range 1 nx) st0 in
  let st2 := curve_pass 1 (λ i j, i * (lx - 1) + j)
                        (range 1 (ny - 1)) (range 1 nx) st1 in
  (st2.2 ++ [Closing])%list.

Definition curve_id (c : chunk) : option Z :=
  match c with Curve k _ _ _ => Some k | _ => None end.
Definition curve_side (c : chunk) : option Z :=
  match c with Curve _ _ side _ => Some side | _ => None end.
Definition curve_edge (c : chunk) : option Z :=
  match c with Curve _ edge _ _ => Some edge | _ => None end.
Definition curve_wave (c : chunk) : option Z :=
  match c with Curve _ _ _ i => Some i | _ => None end.
Definition declared_number (cs : list chunk) : option Z :=
  match cs with Opening n :: _ => Some n | _ => None end.

(** Number of occurrences of [pat] in [s]. *)
Fixpoint count_occurrences (pat s : string) : nat :=
  match s with
  | EmptyString => 0
  | String _ s' =>
      ((if String.prefix pat s then 1 else 0) + count_occurrences pat s')%nat
  end.

(** ** Reading the CURVES section back

    The section as a reader of the session file sees it: the text is cut
    into lines, the declared number is the numeral between
    [<CURVES NUMBER=] and [>], and a curve entry is a line of two
    five-column integers (curve and element), the side, and the file name
    between the SPLINE tags. *)

Fixpoint lines_from (cur : list ascii) (s : string) : list string :=
  match s with
  | EmptyString => [string_of_list_ascii (rev cur)]
  | String c s' =>
      if Ascii.eqb c (ascii_of_nat 10)
      then string_of_list_ascii (rev cur) :: lines_from [] s'
      else lines_from (c :: cur) s'
  end.

Definition text_lines (s : string) : list string := lines_from [] s.

Definition digit (c : ascii) : option Z :=
  let n := nat_of_ascii c in
  if ((48 <=? n) && (n <=? 57))%nat then Some (Z.of_nat (n - 48)) else None.

Fixpoint read_digits (acc : Z) (s : string) : option Z :=
  match s with
  | EmptyString => Some acc
  | String c s' =>
      match digit c with
      | Some d => read_digits (10 * acc + d) s'
      | None => None
      end
  end.

(** A non-empty decimal numeral. *)
Definition read_nat (s : string) : option Z :=
  match s with
  | EmptyString => None
  | _ => read_digits 0 s
  end.

Fixpoint skip_spaces (s : string) : string :=
  match s with
  | String c s' => if Ascii.eqb c " "%char then skip_spaces s' else s
  | EmptyString => s
  end.

(** The integer written by ['%5d'] in the five columns from [from]. *)
Definition read_5d (line : string) (from : nat) : option Z :=
  read_nat (skip_spaces (String.substring from 5 line)).

Definition read_declared (line : string) : option Z :=
  let n := String.length line in
  if String.prefix "<CURVES NUMBER=" line &&
     String.eqb (String.substring (n - 1) 1 line) ">"
  then read_nat (String.substring 15 (n - 16) line)
  else None.

Record entry : Type := Entry {
  entry_id : Z;
  entry_element : Z;
  entry_side : Z;
  entry_file : string
}.

Definition read_entry (line : string) : option entry :=
  match read_5d line 0, read_5d line 5 with
  | Some k, Some e =>
      match Compose.findall_nonspace
              (String.substring 10 (String.length line - 10) line) with
      | [side; open_tag; file; close_tag] =>
          if String.eqb open_tag "<SPLINE>" && String.eqb close_tag "</SPLINE>"
          then match read_nat side with
               | Some sd => Some (Entry k e sd file)
               | None => None
               end
          else None
      | _ => None
      end
  | _, _ => None
  end.

Definition section_declared (text : string) : list Z :=
  omap read_declared (text_lines text).

Definition section_entries (text : string) : list entry :=
  omap read_entry (text_lines text).

(** ** Comparing binary64 numbers *)





(** Line 93: the y-samples that get a point-list file,
    [range(1, len(y))]. *)
Definition geo_indices {F} (y : list F) : list Z := range 1 (length y).

(** ** The script *)

Inductive action : Type :=
| WriteFile (path : string) (content : string)
| Run (cmd : list string) (stdout_to : string)
| System (cmd : string).

Section Script.
Context {F : Type} `{Arith F}.

(** [np.sin], [str(v)] and ['%24.16f' % v] on floating-point values are
    left to numpy and Python. *)
Variable np_sin : F → F.
Variable str_float : F → string.
Variable fmt_24_16f : F → string.
(** [float(s)]: [None] stands for [ValueError]. *)
Variable float_of_string : string → option F.

(** Lines 53-67: the rectmesh input. *)
Definition rect_text (x y : list F) : string :=
  String.concat "" (map (λ v, fmt_24_16f v +:+ nl) x) +:+ nl +:+
  String.concat "" (map (λ v, fmt_24_16f v +:+ nl) y).

(** Line 81 *)
Definition mapcommand (beta_x eps_y : F) : string :=
  "-y " +:+ "y*(1+" +:+ str_float eps_y +:+ "*sin(" +:+ str_float beta_x +:+ "*x))".

(** Lines 96-98: point [j] of the curve at y-sample [i]. *)
Definition geo_point (x y : list F) (beta_x eps_y : F) (i j : Z) : F * F :=
  let x_last := nth (length x - 1) x (of_Z 0) in
  let x_first := nth 0 x (of_Z 0) in
  let xl := fdiv (fmul (fsub x_last x_first) (of_Z j)) (of_Z (960 - 1)) in
  let yl := fmul (nth (Z.to_nat i) y (of_Z 0))
                 (fadd (of_Z 1) (fmul eps_y (np_sin (fmul xl beta_x)))) in
  (xl, yl).

Definition geo_line (p : F * F) : string :=
  str_float p.1 +:+ " " +:+ str_float p.2 +:+ nl.

(** Lines 92-99: one file per [i in range(1, len(y))], [Nx = 960] points
    each. *)
Definition geo_file (x y : list F) (beta_x eps_y : F) (i : Z) : string * list (F * F) :=
  ("wave" +:+ str_int i +:+ ".geo",
   map (geo_point x y beta_x eps_y i) (range 0 960)).

Definition geo_files (x y : list F) (beta_x eps_y : F) : list (string * list (F * F)) :=
  map (geo_file x y beta_x eps_y) (geo_indices y).

(** Lines 103-125: the text of curves.txt. *)
Definition curves_text (x y : list F) : string :=
  String.concat "" (map render (curves (length x) (length y))).

(** Lines 45-132 for parsed arguments.  rectmesh and mapmesh are
    pre-existing executables on the system path. *)
Definition script (beta_x eps_y : F) (session : string) : list action :=
  let x := x_samples beta_x in
  let y := y_samples in
  ([ WriteFile (session +:+ ".rect") (rect_text x y);
    Run ["rectmesh"; session +:+ ".rect"] session;
    Run ["mapmesh"; mapcommand beta_x eps_y; session] (session +:+ "_wavy") ] ++
  map (λ f, WriteFile f.1 (String.concat "" (map geo_line f.2)))
      (geo_files x y beta_x eps_y) ++
  [ WriteFile "curves.txt" (curves_text x y);
    System ("cat " +:+ session +:+ "_wavy" +:+ " curves.txt > " +:+ session);
    System "rm curves.txt" ])%list.

Inductive outcome : Type :=
| Done (acts : list action)
| Usage
| ValueError.

(** Lines 27-33, then the rest of the script. *)
Definition main (argv : list string) : outcome :=
  match argv with
  | [_; a1; a2; session] =>
      match float_of_string a1 with
      | None => ValueError
      | Some beta_x =>
          match float_of_string a2 with
          | None => ValueError
          | Some eps_y => Done (script beta_x eps_y session)
          end
      end
  | _ => Usage
  end.

End Script.

(** ** Sample inputs *)

(** Stand-ins for [float], [str], ['%24.16f'] and [np.sin] in sample
    runs; what is proved of a sample run does not depend on the values
    they return. *)
Definition sample_float_of_string (s : string) : option float :=
  if String.eqb s "2.0" then Some 2%float
  else if String.eqb s "0.1" then Some (dec 1 1)
  else None.
Definition sample_str : float → string := λ _, "?".
Definition sample_sin : float → float := λ v, v.

Definition sample_argv : list string := ["wavy.py"; "2.0"; "0.1"; "test"].

End Wavy.

(* ===================================================================== *)
(** * Properties of compose.py *)
(* ===================================================================== *)

Module ComposeProps.
Import Compose.

(** ** Evaluating the script *)

Lemma index_here {A} (a : A) l w : index (a :: l) 0 w = (Ok a, w).
Proof. reflexivity. Qed.

Lemma index_later {A} (a : A) l n w : index (a :: l) (S n) w = index l n w.
Proof. reflexivity. Qed.

Lemma index_nil {A} n w : index (@nil A) n w = (Raise IndexError, w).
Proof. by destruct n. Qed.

(** Runs the script forward on a world whose global names are known. *)
Ltac script_step :=
  unfold get_name, set_name, mbind, M_bind, mret, M_ret, raise, sys_exit,
    print, emit, raw_input, Fieldfile_r, Fieldfile_w, as_int, as_file, as_strs;
  cbn -[lookup insert index mismatch findall_nonspace];
  rewrite ?index_here, ?index_later, ?index_nil, ?lookup_insert_eq;
  repeat (rewrite lookup_insert_ne by done; rewrite ?lookup_insert_eq);
  rewrite ?lookup_empty.

Ltac script_run := repeat (progress script_step).

(** Every argument count other than 2 and 3 ends in the usage message. *)
Lemma run_usage argv input files cc :
  length argv ≠ 2%nat → length argv ≠ 3%nat →
  observe (run argv input files cc) =
    (Exit 1, [EvPrint (PStr "Usage: compose.py file.fld [anotherfile.fld]")], None).
Proof.
  intros H2 H3. unfold observe, run, main, open_inputs, init, ofile_hdr.
  destruct (Nat.eqb_spec (length argv) 2) as [|_]; [done|].
  destruct (Nat.eqb_spec (length argv) 3) as [|_]; [done|].
  by script_run.
Qed.

(** A single-file run behaves as [single_outcome]. *)
Lemma run_single a0 f1 input files cc :
  observe (run [a0; f1] input files cc) = single_outcome f1 (files !! f1) input cc.
Proof.
  unfold observe, run, main, open_inputs, init, ofile_hdr, single_outcome.
  script_run.
  destruct (files !! f1) as [h1|]; script_run; [|done].
  unfold select_fields. script_run.
  destruct input as [|line [|outfile rest]]; script_run; [done| |].
  - unfold open_output. by script_run.
  - unfold open_output. script_run.
    destruct (cc outfile); script_run; [|done].
    destruct (findall_nonspace line) as [|w0 ws]; script_run; [done|].
    unfold copy_loop. by script_run.
Qed.

(** A dual-file run behaves as [dual_outcome]. *)
Lemma run_dual a0 f1 f2 input files cc :
  observe (run [a0; f1; f2] input files cc) =
    dual_outcome f1 f2 (files !! f1) (files !! f2) input cc.
Proof.
  unfold observe, run, main, open_inputs, init, ofile_hdr, dual_outcome.
  script_run.
  destruct (files !! f1) as [h1|]; script_run; [|done].
  destruct (files !! f2) as [h2|]; script_run; [|done].
  destruct (mismatch _ _); script_run; [done|].
  unfold select_fields. script_run.
  unfold open_output. script_run.
  destruct input as [|outfile rest]; script_run; [done|].
  destruct (cc outfile); by script_run.
Qed.


(** A run by cases on the argument count. *)
Lemma run_cases argv input files cc :
  observe (run argv input files cc) =
    match argv with
    | [_; f1] => single_outcome f1 (files !! f1) input cc
    | [_; f1; f2] => dual_outcome f1 f2 (files !! f1) (files !! f2) input cc
    | _ => (Exit 1, [EvPrint (PStr "Usage: compose.py file.fld [anotherfile.fld]")], None)
    end.
Proof.
  destruct argv as [|a0 [|f1 [|f2 [|a3 more]]]];
    try (by apply run_usage); [apply run_single | apply run_dual].
Qed.

Lemma observe_result r res evs h : observe r = (res, evs, h) → r.1 = res.
Proof. unfold observe. congruence. Qed.

Lemma observe_log r res evs h : observe r = (res, evs, h) → log r.2 = evs.
Proof. unfold observe. congruence. Qed.

Lemma observe_hdr r res evs h : observe r = (res, evs, h) → ofile_hdr r.2 = h.
Proof. unfold observe. congruence. Qed.

(** The conformance condition of the script compares the four geometry
    values. *)
Lemma mismatch_false_iff g1 g2 :
  mismatch g1 g2 = false ↔
  nr g1 = nr g2 ∧ ns g1 = ns g2 ∧ nel g1 = nel g2 ∧ nz g1 = nz g2.
Proof.
  unfold mismatch.
  rewrite !orb_false_iff, !negb_false_iff, !Z.eqb_eq. tauto.
Qed.


(** ** The claims *)

(** C2. Dual-file mode: the conformance check succeeds iff all four
    geometry values nr, ns, nel, nz match; when one differs the script
    prints the mismatch report and ends with exit status 1, and no output
    file has been opened; when they match the script does not end by
    [sys.exit]. *)
Theorem C2_conformance_check a0 f1 f2 input files cc h1 h2 :
  files !! f1 = Some h1 → files !! f2 = Some h2 →
  let g1 := hgeometry h1 in
  let g2 := hgeometry h2 in
  let r := run [a0; f1; f2] input files cc in
  (mismatch g1 g2 = false ↔
     nr g1 = nr g2 ∧ ns g1 = ns g2 ∧ nel g1 = nel g2 ∧ nz g1 = nz g2) ∧
  (mismatch g1 g2 = true →
     r.1 = Exit 1 ∧ exit_status r.1 ≠ 0 ∧
     log r.2 = [ EvOpenRead f1; EvOpenRead f2;
                 EvPrint (PStr "The two input files do not conform") ] ∧
     existsb is_OpenWrite (log r.2) = false) ∧
  (mismatch g1 g2 = false → ∀ code, r.1 ≠ Exit code).
Proof.
  intros Hf1 Hf2 g1 g2 r. split; [apply mismatch_false_iff|].
  pose proof (run_dual a0 f1 f2 input files cc) as Hrun.
  rewrite Hf1, Hf2 in Hrun. unfold dual_outcome in Hrun. fold g1 g2 r in Hrun.
  split; intros Hm; rewrite Hm in Hrun.
  - rewrite (observe_result _ _ _ _ Hrun), (observe_log _ _ _ _ Hrun). done.
  - intros code.
    destruct input as [|outfile rest]; [|destruct (cc outfile)];
      rewrite (observe_result _ _ _ _ Hrun); done.
Qed.

Lemma C2_conformance_check_witness :
  let planes4 := Header (Geometry 8 8 16 4) "c" 0%float 0 4096 in
  let files : gmap string header :=
    <["a.fld" := sample_header "uvp"]> {[ "b.fld" := planes4 ]} in
  let r := run ["compose.py"; "a.fld"; "b.fld"] ["o.fld"] files any_path in
  files !! "a.fld" = Some (sample_header "uvp") ∧
  files !! "b.fld" = Some planes4 ∧
  r.1 = Exit 1 ∧ existsb is_OpenWrite (log r.2) = false.
Proof.
  intros planes4 files r.
  assert (H1 : files !! "a.fld" = Some (sample_header "uvp")) by reflexivity.
  assert (H2 : files !! "b.fld" = Some planes4) by reflexivity.
  split; [exact H1|]. split; [exact H2|].
  destruct (C2_conformance_check "compose.py" "a.fld" "b.fld" ["o.fld"] files any_path
              _ _ H1 H2) as (_ & Hdiffer & _).
  destruct (Hdiffer eq_refl) as (Hexit & _ & _ & Hnone).
  split; [exact Hexit | exact Hnone].
Defined.


(** C1. The selection "u v" of a file holding "uvp": the output file is
    opened with the source header, whose field string is "uvp"; line 49
    then sets the field string of the header object to the first token
    "u" alone, not to the requested "uv"; and the run stops with
    [NameError] at line 54, so that neither a header holding the selection
    nor any data reaches the output file. *)
Theorem C1_selection_not_in_output :
  let r := run ["compose.py"; "a.fld"] ["u v"; "o.fld"]
               (sample_disk "a.fld" "uvp") any_path in
  findall_nonspace "u v" = ["u"; "v"] ∧
  spec_selection "u v" = "uv" ∧
  r.1 = Raise (NameError "ff") ∧
  log r.2 =
    [ EvOpenRead "a.fld";
      EvPrint (PStr "Input file contains these fields: indicate the ones you want:");
      EvPrint (PStr "uvp"); EvPrint (PStr "u v"); EvPrint (PStrs ["u"; "v"]);
      EvPrompt "type in an output file name: ";
      EvOpenWrite "o.fld" (sample_header "uvp");
      EvPrint (PHdr (set_fields "u" (sample_header "uvp")));
      EvPrint (PInt 1024) ] ∧
  fields <$> ofile_hdr r.2 = Some "u" ∧
  fields <$> ofile_hdr r.2 ≠ Some (spec_selection "u v") ∧
  existsb is_WriteData (log r.2) = false.
Proof.
  intros r. vm_compute.
  repeat split; try reflexivity. intros H. discriminate H.
Qed.

(** C3. Composing with the full field set: the run stops with [NameError]
    at line 54, after the output file has been opened, and no data array
    is written. *)
Theorem C3_full_selection_writes_no_data :
  let r := run ["compose.py"; "a.fld"] ["uvp"; "o.fld"]
               (sample_disk "a.fld" "uvp") any_path in
  r.1 = Raise (NameError "ff") ∧
  existsb is_OpenWrite (log r.2) = true ∧
  existsb is_WriteData (log r.2) = false.
Proof.
  intros r. vm_compute. repeat split; reflexivity.
Qed.

(** C4 (as amended). Single-file mode: a selection naming a field that is
    not in the source header is not rejected.  No [SelectionError] is
    raised, the output file is opened with the source header, and the
    first token becomes the field string of the output header. *)
Theorem C4_unknown_names_not_rejected a0 f1 line outfile rest files cc h1 w0 ws name :
  files !! f1 = Some h1 → cc outfile = true →
  findall_nonspace line = w0 :: ws →
  In name (w0 :: ws) → field_present h1 name = false →
  let r := run [a0; f1] (line :: outfile :: rest) files cc in
  (∀ e, r.1 = Raise e → exn_class e ≠ "SelectionError") ∧
  In (EvOpenWrite outfile h1) (log r.2) ∧
  ofile_hdr r.2 = Some (set_fields w0 h1).
Proof.
  intros Hf1 Hcc Htok _ _ r.
  pose proof (run_single a0 f1 (line :: outfile :: rest) files cc) as Hrun.
  rewrite Hf1 in Hrun. unfold single_outcome in Hrun. rewrite Hcc, Htok in Hrun.
  fold r in Hrun.
  rewrite (observe_result _ _ _ _ Hrun), (observe_hdr _ _ _ _ Hrun),
    (observe_log _ _ _ _ Hrun).
  split; [by intros e [= <-]|]. split; [|done].
  apply in_or_app; right; cbn; auto.
Qed.

Lemma C4_unknown_names_not_rejected_witness :
  let files := sample_disk "a.fld" "uvp" in
  let r := run ["compose.py"; "a.fld"] ["u x"; "o.fld"] files any_path in
  files !! "a.fld" = Some (sample_header "uvp") ∧
  findall_nonspace "u x" = ["u"; "x"] ∧
  field_present (sample_header "uvp") "x" = false ∧
  In (EvOpenWrite "o.fld" (sample_header "uvp")) (log r.2).
Proof.
  intros files r.
  assert (H1 : files !! "a.fld" = Some (sample_header "uvp")) by reflexivity.
  assert (H2 : findall_nonspace "u x" = ["u"; "x"]) by reflexivity.
  assert (H3 : field_present (sample_header "uvp") "x" = false) by reflexivity.
  split; [exact H1|]. split; [exact H2|]. split; [exact H3|].
  destruct (C4_unknown_names_not_rejected "compose.py" "a.fld" "u x" "o.fld" [] files
              any_path _ "u" ["x"] "x" H1 eq_refl H2 (or_intror (or_introl eq_refl)) H3)
    as (_ & Hopen & _).
  exact Hopen.
Defined.

(** C4, as stated, fails: for the unknown name "x" the run raises
    [NameError], not a [SelectionError], and the output file has been
    opened by then. *)
Lemma C4_counterexample :
  let r := run ["compose.py"; "a.fld"] ["x"; "o.fld"]
               (sample_disk "a.fld" "uvp") any_path in
  field_present (sample_header "uvp") "x" = false ∧
  r.1 = Raise (NameError "ff") ∧
  ¬ (∃ e, r.1 = Raise e ∧ exn_class e = "SelectionError") ∧
  existsb is_OpenWrite (log r.2) = true.
Proof.
  intros r. vm_compute. repeat split; try reflexivity.
  intros (e & He & Hclass). injection He as <-. discriminate Hclass.
Qed.





(** C6. For an input holding exactly the fields uvcp the transform of
    lines 57-74 is never reached: the run stops with [NameError] on [ff],
    nothing is written, and the only header the script has changed is the
    output header, whose field string is the selection and whose time and
    step are those of the input.  For an input with other fields the run
    ends in the same way, without the message of line 60. *)
Theorem C6_transform_never_runs :
  let r := run ["compose.py"; "c.fld"] ["c"; "o.fld"]
               (sample_disk "c.fld" "uvcp") any_path in
  let r' := run ["compose.py"; "a.fld"] ["u"; "o.fld"]
                (sample_disk "a.fld" "uvp") any_path in
  r.1 = Raise (NameError "ff") ∧
  log r.2 =
    [ EvOpenRead "c.fld";
      EvPrint (PStr "Input file contains these fields: indicate the ones you want:");
      EvPrint (PStr "uvcp"); EvPrint (PStr "c"); EvPrint (PStrs ["c"]);
      EvPrompt "type in an output file name: ";
      EvOpenWrite "o.fld" (sample_header "uvcp");
      EvPrint (PHdr (Header (Geometry 8 8 16 1) "c" 1.5%float 100 1024));
      EvPrint (PInt 1024) ] ∧
  ofile_hdr r.2 = Some (Header (Geometry 8 8 16 1) "c" 1.5%float 100 1024) ∧
  r'.1 = Raise (NameError "ff") ∧
  existsb (λ e, match e with EvErrMsg _ => true | _ => false end) (log r'.2) = false.
Proof.
  intros r r'. vm_compute. repeat split; reflexivity.
Qed.

End ComposeProps.

(* ===================================================================== *)
(** * Properties of wavy.py *)
(* ===================================================================== *)

Module WavyProps.
Import Wavy.

(** ** Sample counts *)

Section Counts.
Context {F : Type} `{Arith F}.

Lemma length_linspace (start stop : F) num : length (linspace start stop num) = num.
Proof.
  unfold linspace. case (1 <? num)%nat.
  - by rewrite length_insert, length_map, length_seq.
  - by rewrite length_map, length_seq.
Qed.

Lemma length_x_samples (beta_x : F) : length (x_samples beta_x) = 11%nat.
Proof. unfold x_samples. by rewrite length_map, length_linspace. Qed.

Lemma length_y_samples : length (@y_samples F _) = 15%nat.
Proof. reflexivity. Qed.

End Counts.

(** ** Numbering of the curves *)

Lemma length_range a b : length (range a b) = (b - a)%nat.
Proof. unfold range. by rewrite length_map, length_seq. Qed.

(** The inner loop numbers its curves [k, k+1, ...] and leaves [k] after
    the last one. *)
Lemma curve_row_ids side edge i cols k out :
  (curve_row side edge i cols (k, out)).1 = k + Z.of_nat (length cols) ∧
  omap curve_id (curve_row side edge i cols (k, out)).2 =
    omap curve_id out ++ seqZ k (Z.of_nat (length cols)).
Proof.
  revert k out. induction cols as [|j cols IH]; intros k out.
  - cbn. split; [lia|]. by rewrite app_nil_r.
  - unfold curve_row in *. cbn [fold_left fst snd length].
    destruct (IH (k + 1) (out ++ [Curve k (edge j) side i])) as [IHk IHids].
    split; [rewrite IHk; lia|].
    rewrite IHids, omap_app. cbn [omap list_omap curve_id].
    rewrite <- app_assoc. f_equal.
    rewrite (seqZ_cons k) by lia. cbn. do 2 f_equal; lia.
Qed.

(** A pass numbers the curves of all its rows consecutively. *)
Lemma curve_pass_ids side edge rows cols k out :
  (curve_pass side edge rows cols (k, out)).1 =
    k + Z.of_nat (length rows) * Z.of_nat (length cols) ∧
  omap curve_id (curve_pass side edge rows cols (k, out)).2 =
    omap curve_id out ++ seqZ k (Z.of_nat (length rows) * Z.of_nat (length cols)).
Proof.
  revert k out. induction rows as [|i rows IH]; intros k out.
  - cbn. split; [lia|]. by rewrite app_nil_r.
  - unfold curve_pass in *. cbn [fold_left length].
    destruct (curve_row_ids side (edge i) i cols k out) as [Hk Hids].
    destruct (curve_row side (edge i) i cols (k, out)) as [k1 out1] eqn:Hrow.
    cbn [fst snd] in *. subst k1.
    destruct (IH (k + Z.of_nat (length cols)) (out1 ++ [Blank])) as [IHk IHids].
    split; [rewrite IHk; lia|].
    rewrite IHids, omap_app, Hids. cbn [omap list_omap curve_id].
    rewrite app_nil_r, <- app_assoc. f_equal.
    replace (Z.of_nat (S (length rows)) * Z.of_nat (length cols))
      with (Z.of_nat (length cols) + Z.of_nat (length rows) * Z.of_nat (length cols))
      by lia.
    rewrite seqZ_app by lia. done.
Qed.

(** For any grid with at least one x-sample and two y-samples the section
    declares as many curves as it writes, numbered 1, 2, ... in the order
    written. *)
Lemma curves_ids nx ny :
  (1 ≤ nx)%nat → (2 ≤ ny)%nat →
  let number := (Z.of_nat nx - 1) * (2 * (Z.of_nat ny - 2) + 1) in
  declared_number (curves nx ny) = Some number ∧
  omap curve_id (curves nx ny) = seqZ 1 number.
Proof.
  intros Hnx Hny number. unfold curves.
  set (st0 := (1, [Opening ((Z.of_nat nx - 1) * (2 * (Z.of_nat ny - 2) + 1))])).
  destruct (curve_pass_ids 3 (λ i j, (i - 1) * (Z.of_nat nx - 1) + j)
              (range 1 ny) (range 1 nx) 1
              [Opening ((Z.of_nat nx - 1) * (2 * (Z.of_nat ny - 2) + 1))])
    as [Hk1 Hids1].
  fold st0 in Hk1, Hids1.
  destruct (curve_pass 3 _ (range 1 ny) (range 1 nx) st0) as [k1 out1] eqn:Hp1.
  cbn [fst snd] in *.
  destruct (curve_pass_ids 1 (λ i j, i * (Z.of_nat nx - 1) + j)
              (range 1 (ny - 1)) (range 1 nx) k1 out1) as [_ Hids2].
  destruct (curve_pass 1 _ (range 1 (ny - 1)) (range 1 nx) (k1, out1))
    as [k2 out2] eqn:Hp2.
  cbn [fst snd] in *.
  assert (Hhead : ∃ tl, out2 = Opening number :: tl).
  { assert (Hgrow : ∀ side edge rows cols k out c tl,
              out = c :: tl →
              ∃ tl', (curve_pass side edge rows cols (k, out)).2 = c :: tl').
    { intros side edge rows cols. unfold curve_pass, curve_row.
      induction rows as [|i rows IH]; intros k out c tl ->; [by eexists|].
      cbn [fold_left].
      assert (Hrow : ∀ cs k out c tl, out = c :: tl →
                ∃ tl', (fold_left (λ st j, (st.1 + 1, st.2 ++ [Curve st.1 (edge i j) side i]))
                          cs (k, out)).2 = c :: tl').
      { induction cs as [|j cs IHc]; intros k' out' c' tl' ->; [by eexists|].
        cbn [fold_left fst snd]. by eapply IHc. }
      destruct (Hrow cols k (c :: tl) c tl eq_refl) as [tl1 Htl1].
      destruct (fold_left _ cols (k, c :: tl)) as [k' out'] eqn:Hfold.
      cbn [fst snd] in *. subst out'. by eapply IH. }
    destruct (Hgrow 3 (λ i j, (i - 1) * (Z.of_nat nx - 1) + j) (range 1 ny) (range 1 nx)
                1 st0.2 (Opening number) [] eq_refl) as [tl1 Htl1].
    change (1, st0.2) with st0 in Htl1. rewrite Hp1 in Htl1. cbn in Htl1.
    destruct (Hgrow 1 (λ i j, i * (Z.of_nat nx - 1) + j) (range 1 (ny - 1)) (range 1 nx)
                k1 out1 (Opening number) tl1 Htl1) as [tl2 Htl2].
    rewrite Hp2 in Htl2. by eexists. }
  destruct Hhead as [tl ->]. split; [done|].
  rewrite omap_app, Hids2, Hids1. cbn [omap list_omap curve_id st0 snd].
  rewrite app_nil_r, app_nil_l, Hk1, !length_range.
  rewrite !Nat2Z.inj_sub by lia. cbn [Z.of_nat Pos.of_succ_nat Pos.succ].
  rewrite <- seqZ_app by (apply Z.mul_nonneg_nonneg; lia).
  f_equal. unfold number. ring.
Qed.


(** ** The script as a whole *)

Section Runs.
Context {F : Type} `{Arith F}.
Variable np_sin : F → F.
Variable str_float fmt_24_16f : F → string.
Variable float_of_string : string → option F.

(** A run that reaches the end of the script had three arguments after
    the script name, the first two of them numbers. *)
Lemma main_Done argv acts :
  main np_sin str_float fmt_24_16f float_of_string argv = Done acts →
  ∃ a0 a1 a2 session beta_x eps_y,
    argv = [a0; a1; a2; session] ∧
    float_of_string a1 = Some beta_x ∧ float_of_string a2 = Some eps_y ∧
    acts = script np_sin str_float fmt_24_16f beta_x eps_y session.
Proof.
  unfold main. intros Hmain.
  destruct argv as [|a0 [|a1 [|a2 [|session [|more argv]]]]]; try discriminate Hmain.
  destruct (float_of_string a1) as [beta_x|] eqn:H1; [|discriminate Hmain].
  destruct (float_of_string a2) as [eps_y|] eqn:H2; [|discriminate Hmain].
  injection Hmain as <-. by exists a0, a1, a2, session, beta_x, eps_y.
Qed.

(** The text of curves.txt does not depend on the arguments. *)
Lemma curves_text_fixed (beta_x : F) :
  curves_text (x_samples beta_x) y_samples =
    String.concat "" (map render (curves 11 15)).
Proof. unfold curves_text. by rewrite length_x_samples, length_y_samples. Qed.

End Runs.

(** Two binary64 numbers whose comparison [eqb] is [false] are
    different. *)
Lemma float_neq (a b : float) : PrimFloat.eqb a b = false → PrimFloat.eqb b b = true → a ≠ b.
Proof. intros Hab Hbb ->. rewrite Hbb in Hab. discriminate Hab. Qed.





(** ** The claims *)

(** C7. For every invocation that reaches the CURVES section, the section
    written to curves.txt declares
    NUMBER = (len(x)-1) * (2*(len(y)-2)+1) = 10 * (2*13+1) = 270; the text
    holds exactly 270 SPLINE entries, whose curve IDs read 1, 2, ..., 270
    in the order written: a first pass over the rows 1..14 (140 curves on
    side 3, files wave1.geo .. wave14.geo), then a second pass over the
    rows 1..13 (130 curves on side 1), ten curves per row. *)
Theorem C7_curve_count {F : Type} `{Arith F}
    (np_sin : F → F) (str_float fmt_24_16f : F → string)
    (float_of_string : string → option F) (argv : list string) (acts : list action) :
  main np_sin str_float fmt_24_16f float_of_string argv = Done acts →
  ∃ beta_x eps_y session before text,
    acts = script np_sin str_float fmt_24_16f beta_x eps_y session ∧
    acts = before ++
           [ WriteFile "curves.txt" text;
             System ("cat " +:+ session +:+ "_wavy" +:+ " curves.txt > " +:+ session);
             System "rm curves.txt" ] ∧
    let x := x_samples beta_x in
    let y := @y_samples F _ in
    let cs := curves (length x) (length y) in
    let wave i := "wave" +:+ str_int i +:+ ".geo" in
    text = String.concat "" (map render cs) ∧
    (Z.of_nat (length x) - 1) * (2 * (Z.of_nat (length y) - 2) + 1) = 270 ∧
    section_declared text = [270] ∧
    count_occurrences "<SPLINE>" text = 270%nat ∧
    map entry_id (section_entries text) = seqZ 1 270 ∧
    map entry_side (section_entries text) = replicate 140 3 ++ replicate 130 1 ∧
    map entry_file (section_entries text) =
      flat_map (λ i, replicate 10 (wave i)) (seqZ 1 14) ++
      flat_map (λ i, replicate 10 (wave i)) (seqZ 1 13) ∧
    declared_number cs = Some 270 ∧
    omap curve_id cs = seqZ 1 270 ∧
    omap curve_side cs = replicate 140 3 ++ replicate 130 1 ∧
    omap curve_wave cs =
      flat_map (replicate 10) (seqZ 1 14) ++ flat_map (replicate 10) (seqZ 1 13).
Proof.
  intros Hmain.
  apply main_Done in Hmain
    as (a0 & a1 & a2 & session & beta_x & eps_y & _ & _ & _ & Hacts).
  exists beta_x, eps_y, session.
  eexists. exists (String.concat "" (map render (curves 11 15))).
  split; [exact Hacts|].
  split.
  { rewrite Hacts. unfold script. rewrite curves_text_fixed, app_assoc. reflexivity. }
  cbv zeta. change (length (x_samples beta_x)) with 11%nat.
  change (length (@y_samples F _)) with 15%nat.
  destruct (curves_ids 11 15) as [Hdeclared Hids]; [lia..|].
  split; [reflexivity|]. split; [reflexivity|].
  split; [vm_compute; reflexivity|]. split; [vm_compute; reflexivity|].
  split; [vm_compute; reflexivity|]. split; [vm_compute; reflexivity|].
  split; [vm_compute; reflexivity|].
  split; [exact Hdeclared|]. split; [exact Hids|].
  split; vm_compute; reflexivity.
Qed.

Lemma C7_curve_count_witness :
  let acts := script sample_sin sample_str sample_str 2%float (dec 1 1) "test" in
  main sample_sin sample_str sample_str sample_float_of_string sample_argv = Done acts ∧
  ∃ session before text,
    acts = before ++
           [ WriteFile "curves.txt" text;
             System ("cat " +:+ session +:+ "_wavy" +:+ " curves.txt > " +:+ session);
             System "rm curves.txt" ] ∧
    section_declared text = [270] ∧
    map entry_id (section_entries text) = seqZ 1 270.
Proof.
  intros acts.
  assert (Hmain : main sample_sin sample_str sample_str sample_float_of_string
                    sample_argv = Done acts) by reflexivity.
  split; [exact Hmain|].
  destruct (C7_curve_count _ _ _ _ _ _ Hmain)
    as (beta_x & eps_y & session & before & text & _ & Hshape & _ & _ & Hdecl & _ & Hids & _).
  exists session, before, text. split; [exact Hshape|]. split; [exact Hdecl|exact Hids].
Defined.

(** C10. The text written to curves.txt is the same in every run: it is
    the rendering of the curves of an 11 by 15 grid, whatever beta_x, eps_y
    and the session name are; the write of curves.txt is followed only by
    the two shell commands that append it to the session file and remove
    it. *)
Theorem C10_curves_text_constant {F : Type} `{Arith F}
    (np_sin : F → F) (str_float fmt_24_16f : F → string)
    (beta_x eps_y beta_x' eps_y' : F) (session session' : string) :
  let text := String.concat "" (map render (curves 11 15)) in
  curves_text (x_samples beta_x) y_samples = text ∧
  curves_text (x_samples beta_x) y_samples =
    curves_text (x_samples beta_x') y_samples ∧
  (∃ before,
     script np_sin str_float fmt_24_16f beta_x eps_y session =
       before ++ [ WriteFile "curves.txt" text;
                   System ("cat " +:+ session +:+ "_wavy" +:+ " curves.txt > " +:+ session);
                   System "rm curves.txt" ]) ∧
  (∃ before',
     script np_sin str_float fmt_24_16f beta_x' eps_y' session' =
       before' ++ [ WriteFile "curves.txt" text;
                    System ("cat " +:+ session' +:+ "_wavy" +:+ " curves.txt > " +:+ session');
                    System "rm curves.txt" ]).
Proof.
  intros text.
  assert (Htext : ∀ b : F, curves_text (x_samples b) y_samples = text).
  { intros b. unfold curves_text.
    by rewrite length_x_samples, length_y_samples. }
  split; [apply Htext|]. split; [by rewrite !Htext|].
  split; unfold script; rewrite Htext, app_assoc; by eexists.
Qed.

(** C8 (as amended). A point-list file is written for every y-sample
    except the first, the last one included: between the mapmesh run and
    the CURVES section the script writes the 14 = len(y)-1 files
    wave1.geo, ..., wave14.geo.  File i holds exactly 960 lines, one per
    point (xl, y[i]*(1+eps_y*sin(xl*beta_x))), with
    xl = (x[10]-x[0])*j/959 for j = 0, ..., 959. *)
Theorem C8_geo_files {F : Type} `{Arith F}
    (np_sin : F → F) (str_float fmt_24_16f : F → string)
    (float_of_string : string → option F) (argv : list string) (acts : list action) :
  main np_sin str_float fmt_24_16f float_of_string argv = Done acts →
  ∃ beta_x eps_y session,
    acts = script np_sin str_float fmt_24_16f beta_x eps_y session ∧
    let x := x_samples beta_x in
    let y := @y_samples F _ in
    let span := fsub (nth 10 x (of_Z 0)) (nth 0 x (of_Z 0)) in
    let point (i j : Z) :=
      let xl := fdiv (fmul span (of_Z j)) (of_Z 959) in
      (xl, fmul (nth (Z.to_nat i) y (of_Z 0))
                (fadd (of_Z 1) (fmul eps_y (np_sin (fmul xl beta_x))))) in
    let files := geo_files np_sin x y beta_x eps_y in
    acts =
      [ WriteFile (session +:+ ".rect") (rect_text fmt_24_16f x y);
        Run ["rectmesh"; session +:+ ".rect"] session;
        Run ["mapmesh"; mapcommand str_float beta_x eps_y; session] (session +:+ "_wavy") ] ++
      map (λ i, WriteFile ("wave" +:+ str_int i +:+ ".geo")
                  (String.concat ""
                     (map (λ j, geo_line str_float (point i j)) (seqZ 0 960))))
          (seqZ 1 14) ++
      [ WriteFile "curves.txt" (curves_text x y);
        System ("cat " +:+ session +:+ "_wavy" +:+ " curves.txt > " +:+ session);
        System "rm curves.txt" ] ∧
    geo_indices y = seqZ 1 14 ∧
    length files = 14%nat ∧
    (length y - 1 = 14)%nat ∧
    length (seqZ 0 960) = 960%nat ∧
    files = map (λ i, ("wave" +:+ str_int i +:+ ".geo", map (point i) (seqZ 0 960)))
                (seqZ 1 14) ∧
    Forall (λ f, length f.2 = 960%nat) files.
Proof.
  intros Hmain.
  apply main_Done in Hmain
    as (a0 & a1 & a2 & session & beta_x & eps_y & _ & _ & _ & Hacts).
  exists beta_x, eps_y, session. split; [exact Hacts|].
  intros x y span point files.
  assert (Hidx : geo_indices y = seqZ 1 14) by reflexivity.
  assert (Hfiles : files =
            map (λ i, ("wave" +:+ str_int i +:+ ".geo", map (point i) (seqZ 0 960)))
                (seqZ 1 14)).
  { subst files. unfold geo_files. rewrite Hidx. apply map_ext. intros i.
    unfold geo_file, geo_point, point, span. subst x.
    rewrite length_x_samples. reflexivity. }
  split.
  { rewrite Hacts. unfold script. fold x y files. rewrite Hfiles, !map_map.
    cbn [fst snd]. reflexivity. }
  split; [exact Hidx|]. split; [by rewrite Hfiles, length_map|].
  split; [reflexivity|]. split; [reflexivity|]. split; [exact Hfiles|].
  rewrite Hfiles. apply List.Forall_forall. intros f Hin.
  apply in_map_iff in Hin as (i & <- & _). cbn [snd].
  by rewrite length_map, length_seqZ.
Qed.

Lemma C8_geo_files_witness :
  let acts := script sample_sin sample_str sample_str 2%float (dec 1 1) "test" in
  main sample_sin sample_str sample_str sample_float_of_string sample_argv = Done acts ∧
  ∃ beta_x eps_y,
    length (geo_files sample_sin (x_samples beta_x) y_samples beta_x eps_y) = 14%nat.
Proof.
  intros acts.
  assert (Hmain : main sample_sin sample_str sample_str sample_float_of_string
                    sample_argv = Done acts) by reflexivity.
  split; [exact Hmain|].
  destruct (C8_geo_files _ _ _ _ _ _ Hmain)
    as (beta_x & eps_y & session & _ & _ & _ & Hlen & _).
  exists beta_x, eps_y. exact Hlen.
Defined.

(** C8, as stated, fails: the loop of line 93 runs over the indices
    1, ..., 14, so 14 files are written, not len(y)-2 = 13, and the last
    y-sample, of index len(y)-1 = 14, has one; and in binary64 the last
    abscissa of a file is not always x[10]: for beta_x = 19 it is
    (x[10]-x[0])*959/959 = 0x1.52a170397ba30p-2, one unit in the last
    place above x[10]. *)
Lemma C8_counterexample :
  let y := @y_samples float float_arith in
  let x := x_samples 19%float in
  geo_indices y = [1; 2; 3; 4; 5; 6; 7; 8; 9; 10; 11; 12; 13; 14] ∧
  length (geo_indices y) ≠ (length y - 2)%nat ∧
  In (Z.of_nat (length y) - 1) (geo_indices y) ∧
  (geo_point sample_sin x y 19%float (dec 1 1) 14 959).1 ≠ nth 10 x 0%float ∧
  (geo_point sample_sin x y 19%float (dec 1 1) 14 959).1 =
    PrimFloat.next_up (nth 10 x 0%float).
Proof.
  intros y x. split; [vm_compute; reflexivity|].
  split; [vm_compute; intros Heq; discriminate Heq|].
  split; [vm_compute; do 13 right; by left|].
  split; [|vm_compute; reflexivity].
  apply float_neq; vm_compute; reflexivity.
Qed.




End WavyProps.

(* ===================================================================== *)
(** * Further properties of compose.py *)
(* ===================================================================== *)

Module ComposeMore.
Import Compose ComposeProps.

(** ** The tokens of [re.findall(r'\S+', line)] *)

Lemma string_of_list_ascii_nil_iff (l : list ascii) :
  string_of_list_ascii l = "" ↔ l = [].
Proof. destruct l; cbn; split; congruence. Qed.

(** No token at all: nothing is being read and the rest is whitespace. *)
Lemma tokens_nil_iff cur s :
  tokens cur s = [] ↔ cur = [] ∧ all_space s = true.
Proof.
  revert cur. induction s as [|c s IH]; intros cur.
  - destruct cur; cbn; split; try done. by intros [? _].
  - unfold all_space in *. cbn [tokens list_ascii_of_string forallb].
    destruct (is_space c) eqn:Hc.
    + destruct cur; [rewrite IH; cbn; tauto|]. split; [done|]. by intros [? _].
    + rewrite IH. cbn. split; [by intros [? _]|]. by intros [_ ?].
Qed.

Lemma tokens_are_tokens cur s :
  forallb (λ c, negb (is_space c)) cur = true →
  Forall (λ t, is_token t = true) (tokens cur s).
Proof.
  assert (Hcur : ∀ c cur, forallb (λ c, negb (is_space c)) (c :: cur) = true →
            is_token (string_of_list_ascii (rev (c :: cur))) = true).
  { intros c cur' Hall. unfold is_token. apply andb_true_intro. split.
    - apply negb_true_iff, String.eqb_neq. intros Hnil.
      apply string_of_list_ascii_nil_iff in Hnil.
      apply (f_equal (@length ascii)) in Hnil. rewrite length_rev in Hnil.
      discriminate Hnil.
    - rewrite list_ascii_of_string_of_list_ascii.
      apply forallb_forall. intros a Ha. apply in_rev in Ha.
      by apply (proj1 (forallb_forall _ _) Hall). }
  revert cur. induction s as [|c s IH]; intros cur Hall.
  - cbn. destruct cur; [constructor|]. constructor; [by apply Hcur|constructor].
  - cbn [tokens]. destruct (is_space c) eqn:Hc.
    + destruct cur; [by apply IH|]. constructor; [by apply Hcur|by apply IH].
    + apply IH. cbn. by rewrite Hc.
Qed.

(** Reading a whitespace-free word extends the run being read. *)
Lemma tokens_word t cur s :
  forallb (λ c, negb (is_space c)) (list_ascii_of_string t) = true →
  tokens cur (t +:+ s) = tokens (rev (list_ascii_of_string t) ++ cur) s.
Proof.
  revert cur. induction t as [|c t IH]; intros cur Hall; [done|].
  cbn in Hall. apply andb_prop in Hall as [Hc Ht].
  apply negb_true_iff in Hc.
  change (String c t +:+ s) with (String c (t +:+ s)).
  cbn [tokens list_ascii_of_string rev]. rewrite Hc, IH by done.
  by rewrite <- app_assoc.
Qed.


Lemma append_empty_r (s : string) : s +:+ "" = s.
Proof.
  induction s as [|c s IH]; [done|].
  change (String c (s +:+ "") = String c s). by rewrite IH.
Qed.

Lemma is_token_word t :
  is_token t = true →
  t ≠ "" ∧ forallb (λ c, negb (is_space c)) (list_ascii_of_string t) = true.
Proof.
  unfold is_token. intros [Hne Hall]%andb_prop. split; [|done].
  by apply String.eqb_neq, negb_true_iff.
Qed.

(** A word followed by the end of the line, or by a space, is a token. *)
Lemma tokens_word_end t :
  is_token t = true → tokens [] t = [t].
Proof.
  intros [Hne Hall]%is_token_word.
  rewrite <- (append_empty_r t) at 1. rewrite tokens_word by done.
  rewrite app_nil_r. cbn.
  destruct (rev (list_ascii_of_string t)) as [|c l] eqn:Hrev.
  - apply (f_equal (@rev ascii)) in Hrev. rewrite rev_involutive in Hrev.
    apply (f_equal string_of_list_ascii) in Hrev.
    rewrite string_of_list_ascii_of_string in Hrev. done.
  - rewrite <- Hrev, rev_involutive, string_of_list_ascii_of_string. done.
Qed.

Lemma tokens_word_space t s :
  is_token t = true → tokens [] (t +:+ " " +:+ s) = t :: tokens [] s.
Proof.
  intros [Hne Hall]%is_token_word.
  rewrite tokens_word by done. rewrite app_nil_r.
  change (" " +:+ s) with (String " "%char s). cbn [tokens].
  change (is_space " "%char) with true. cbn match.
  destruct (rev (list_ascii_of_string t)) as [|c l] eqn:Hrev.
  - apply (f_equal (@rev ascii)) in Hrev. rewrite rev_involutive in Hrev.
    apply (f_equal string_of_list_ascii) in Hrev.
    rewrite string_of_list_ascii_of_string in Hrev. done.
  - rewrite <- Hrev, rev_involutive, string_of_list_ascii_of_string. done.
Qed.

(** ** Properties of the token list *)

(** X1. Every token found by line 43 is non-empty and free of
    whitespace. *)
Theorem X1_tokens_nonempty_nonspace (line : string) :
  Forall (λ t, is_token t = true) (findall_nonspace line).
Proof. by apply tokens_are_tokens. Qed.

(** X2. Splitting undoes joining: for whitespace-free, non-empty words the
    tokens of the words joined by single spaces are the words, in order. *)
Theorem X2_findall_of_joined_words (words : list string) :
  Forall (λ t, is_token t = true) words →
  findall_nonspace (String.concat " " words) = words.
Proof.
  unfold findall_nonspace.
  induction words as [|t words IH]; intros Hwords; [done|].
  apply Forall_cons in Hwords as [Ht Hwords].
  destruct words as [|t' words].
  - cbn. by apply tokens_word_end.
  - change (String.concat " " (t :: t' :: words))
      with (t +:+ " " +:+ String.concat " " (t' :: words)).
    rewrite tokens_word_space by done. f_equal. by apply IH.
Qed.

Lemma X2_findall_of_joined_words_witness :
  Forall (λ t, is_token t = true) ["u"; "v"; "p"] ∧
  findall_nonspace "u v p" = ["u"; "v"; "p"].
Proof.
  assert (Hwords : Forall (λ t, is_token t = true) ["u"; "v"; "p"]).
  { repeat constructor. }
  split; [exact Hwords|].
  exact (X2_findall_of_joined_words ["u"; "v"; "p"] Hwords).
Defined.

(** X3. Single-file mode, both prompts answered, output file creatable:
    the run ends in [IndexError] at line 49 exactly when the selection
    line is empty or made of whitespace only, and in [NameError] on [ff]
    at line 54 otherwise. *)
Theorem X3_blank_selection_iff_IndexError a0 f1 line outfile rest files cc h1 :
  files !! f1 = Some h1 → cc outfile = true →
  let r := run [a0; f1] (line :: outfile :: rest) files cc in
  (r.1 = Raise IndexError ↔ all_space line = true) ∧
  (r.1 = Raise (NameError "ff") ↔ all_space line = false).
Proof.
  intros Hf1 Hcc r.
  pose proof (run_single a0 f1 (line :: outfile :: rest) files cc) as Hrun.
  rewrite Hf1 in Hrun. unfold single_outcome in Hrun. rewrite Hcc in Hrun.
  fold r in Hrun.
  pose proof (tokens_nil_iff [] line) as Hnil. fold (findall_nonspace line) in Hnil.
  destruct (findall_nonspace line) as [|w0 ws];
    rewrite (observe_result _ _ _ _ Hrun).
  - assert (Hall : all_space line = true) by by apply Hnil.
    rewrite Hall. split; split; auto; discriminate.
  - assert (Hall : all_space line = false).
    { destruct (all_space line); [|done].
      discriminate (proj2 Hnil (conj eq_refl eq_refl)). }
    rewrite Hall. split; split; auto; discriminate.
Qed.

Lemma X3_blank_selection_iff_IndexError_witness :
  let files := sample_disk "a.fld" "uvp" in
  let r := run ["compose.py"; "a.fld"] ["  "; "o.fld"] files any_path in
  files !! "a.fld" = Some (sample_header "uvp") ∧
  any_path "o.fld" = true ∧
  all_space "  " = true ∧
  r.1 = Raise IndexError.
Proof.
  intros files r.
  assert (H1 : files !! "a.fld" = Some (sample_header "uvp")) by reflexivity.
  split; [exact H1|]. split; [reflexivity|]. split; [reflexivity|].
  destruct (X3_blank_selection_iff_IndexError "compose.py" "a.fld" "  " "o.fld" []
              files any_path _ H1 eq_refl) as [[_ Hblank] _].
  exact (Hblank eq_refl).
Defined.


(** ** Arguments and input files *)

(** X4. Any argument count other than 2 and 3: the script prints the usage
    line and exits with status 1; it binds no name, opens no file and
    reads nothing from standard input. *)
Theorem X4_usage_touches_nothing argv input files cc :
  length argv ≠ 2%nat → length argv ≠ 3%nat →
  run argv input files cc =
    (Exit 1,
     World ∅ ∅ input files cc
           [EvPrint (PStr "Usage: compose.py file.fld [anotherfile.fld]")]).
Proof.
  intros H2 H3. unfold run, main, open_inputs, init.
  destruct (Nat.eqb_spec (length argv) 2) as [|_]; [done|].
  destruct (Nat.eqb_spec (length argv) 3) as [|_]; [done|].
  by script_run.
Qed.

Lemma X4_usage_touches_nothing_witness :
  length ["compose.py"] ≠ 2%nat ∧ length ["compose.py"] ≠ 3%nat ∧
  (run ["compose.py"] ["uvp"] ∅ any_path).1 = Exit 1.
Proof.
  assert (H2 : length ["compose.py"] ≠ 2%nat) by (intros H; discriminate H).
  assert (H3 : length ["compose.py"] ≠ 3%nat) by (intros H; discriminate H).
  split; [exact H2|]. split; [exact H3|].
  exact (f_equal fst (X4_usage_touches_nothing ["compose.py"] ["uvp"] ∅ any_path H2 H3)).
Defined.

(** X5. An input file that cannot be opened ends the run in [IOError] on
    its path before anything is printed or read from standard input; in
    dual-file mode a missing second file is found after the first has been
    opened, and before the conformance check. *)
Theorem X5_unreadable_input a0 missing other input files cc h :
  files !! missing = None → files !! other = Some h →
  let r1 := run [a0; missing] input files cc in
  let r2 := run [a0; missing; other] input files cc in
  let r3 := run [a0; other; missing] input files cc in
  (observe r1 = (Raise (IOError missing), [], None) ∧ stdin r1.2 = input) ∧
  (observe r2 = (Raise (IOError missing), [], None) ∧ stdin r2.2 = input) ∧
  (observe r3 = (Raise (IOError missing), [EvOpenRead other], None) ∧
   stdin r3.2 = input).
Proof.
  intros Hmissing Hother r1 r2 r3. subst r1 r2 r3.
  unfold observe, ofile_hdr, run, main, open_inputs, init.
  repeat split; script_run; rewrite ?Hother, ?Hmissing; script_run;
    rewrite ?Hother, ?Hmissing; by script_run.
Qed.

Lemma X5_unreadable_input_witness :
  let files := sample_disk "a.fld" "uvp" in
  files !! "gone.fld" = None ∧
  files !! "a.fld" = Some (sample_header "uvp") ∧
  observe (run ["compose.py"; "a.fld"; "gone.fld"] ["o.fld"] files any_path) =
    (Raise (IOError "gone.fld"), [EvOpenRead "a.fld"], None).
Proof.
  intros files.
  assert (H1 : files !! "gone.fld" = None) by reflexivity.
  assert (H2 : files !! "a.fld" = Some (sample_header "uvp")) by reflexivity.
  split; [exact H1|]. split; [exact H2|].
  destruct (X5_unreadable_input "compose.py" "gone.fld" "a.fld" ["o.fld"] files
              any_path _ H1 H2) as (_ & _ & Hthird & _).
  exact Hthird.
Defined.

(** X6. Dual-file mode uses the second file for the conformance check
    only: two runs whose second files have the same geometry are observed
    alike, whatever fields, time and step the second files hold; and when
    the files conform no [print] statement runs: the fields are neither
    shown nor asked for, and all that reaches standard output is the
    prompt for the output file name. *)
Theorem X6_second_file_geometry_only a0 f1 f2 input files files' cc h1 h2 h2' :
  files !! f1 = Some h1 → files' !! f1 = Some h1 →
  files !! f2 = Some h2 → files' !! f2 = Some h2' →
  hgeometry h2 = hgeometry h2' →
  let r := run [a0; f1; f2] input files cc in
  let r' := run [a0; f1; f2] input files' cc in
  observe r = observe r' ∧
  (mismatch (hgeometry h1) (hgeometry h2) = false →
   existsb is_print (log r.2) = false ∧
   List.filter is_stdout (log r.2) = [EvPrompt "type in an output file name: "]).
Proof.
  intros Hf1 Hf1' Hf2 Hf2' Hgeo r r'. subst r r'.
  rewrite !run_dual, Hf1, Hf1', Hf2, Hf2'. unfold dual_outcome.
  rewrite <- Hgeo. split; [done|]. intros Hm.
  pose proof (run_dual a0 f1 f2 input files cc) as Hrun.
  rewrite Hf1, Hf2 in Hrun. unfold dual_outcome in Hrun. rewrite Hm in Hrun.
  destruct input as [|outfile rest]; [|destruct (cc outfile)];
    rewrite (observe_log _ _ _ _ Hrun); split; reflexivity.
Qed.

Lemma X6_second_file_geometry_only_witness :
  let other := Header (Geometry 8 8 16 1) "c" 0%float 7 1024 in
  let files : gmap string header :=
    <["a.fld" := sample_header "uvp"]> (sample_disk "b.fld" "uvwp") in
  let files' : gmap string header :=
    <["a.fld" := sample_header "uvp"]> {[ "b.fld" := other ]} in
  files !! "b.fld" = Some (sample_header "uvwp") ∧
  files' !! "b.fld" = Some other ∧
  hgeometry (sample_header "uvwp") = hgeometry other ∧
  observe (run ["compose.py"; "a.fld"; "b.fld"] ["o.fld"] files any_path) =
    observe (run ["compose.py"; "a.fld"; "b.fld"] ["o.fld"] files' any_path).
Proof.
  intros other files files'.
  assert (H1 : files !! "a.fld" = Some (sample_header "uvp")) by reflexivity.
  assert (H1' : files' !! "a.fld" = Some (sample_header "uvp")) by reflexivity.
  assert (H2 : files !! "b.fld" = Some (sample_header "uvwp")) by reflexivity.
  assert (H2' : files' !! "b.fld" = Some other) by reflexivity.
  split; [exact H2|]. split; [exact H2'|]. split; [reflexivity|].
  destruct (X6_second_file_geometry_only "compose.py" "a.fld" "b.fld" ["o.fld"]
              files files' any_path _ _ _ H1 H1' H2 H2' eq_refl) as [Hsame _].
  exact Hsame.
Defined.

(** X7. Whatever the arguments, the input lines and the files are, the
    script ends with exit status 1: by [sys.exit(1)] or by an uncaught
    exception, never at the end of the script. *)
Theorem X7_exit_status_always_1 argv input files cc :
  exit_status (run argv input files cc).1 = 1.
Proof.
  pose proof (run_cases argv input files cc) as Hrun.
  destruct (observe (run argv input files cc)) as [[res evs] h] eqn:Hobs.
  rewrite (observe_result _ _ _ _ Hobs). clear Hobs.
  destruct argv as [|a0 [|f1 [|f2 [|a3 more]]]]; simplify_eq; try done.
  - unfold single_outcome in Hrun.
    destruct (files !! f1) as [h1|]; [|by simplify_eq].
    destruct input as [|line [|outfile rest]]; [by simplify_eq..|].
    destruct (cc outfile); [|by simplify_eq].
    destruct (findall_nonspace line); by simplify_eq.
  - unfold dual_outcome in Hrun.
    destruct (files !! f1) as [h1|]; [|by simplify_eq].
    destruct (files !! f2) as [h2|]; [|by simplify_eq].
    destruct (mismatch _ _); [by simplify_eq|].
    destruct input as [|outfile rest]; [by simplify_eq|].
    destruct (cc outfile); by simplify_eq.
Qed.


(** ** The names [ff] and [data], and the loop of lines 53-74 *)

(** X8. No run ever binds the names [ff] and [data]: whatever the inputs
    are, both are absent from the global names when the script stops. *)
Theorem X8_ff_and_data_never_bound argv input files cc :
  globals (run argv input files cc).2 !! "ff" = None ∧
  globals (run argv input files cc).2 !! "data" = None.
Proof.
  unfold run, main, open_inputs, init.
  destruct argv as [|a0 [|f1 [|f2 [|a3 more]]]];
    try (script_run; by split).
  - (* one file *)
    script_run. destruct (files !! f1) as [h1|]; [|script_run; by split].
    unfold select_fields. script_run.
    destruct input as [|line [|outfile rest]]; [script_run; by split| |];
      unfold open_output; script_run; [script_run; by split|].
    destruct (cc outfile); [|script_run; by split]. script_run.
    destruct (findall_nonspace line) as [|w0 ws]; [script_run; by split|].
    unfold copy_loop. script_run; by split.
  - (* two files *)
    script_run. destruct (files !! f1) as [h1|]; [|script_run; by split].
    script_run. destruct (files !! f2) as [h2|]; [|script_run; by split].
    script_run. destruct (mismatch _ _); [script_run; by split|].
    unfold select_fields. script_run. unfold open_output. script_run.
    destruct input as [|outfile rest]; [script_run; by split|]. script_run.
    destruct (cc outfile); script_run; by split.
Qed.

Ltac loop_step :=
  unfold loop_body, fill_zero, array_fill_zero, as_arrays, as_dict,
    Fieldfile_write;
  script_step.

Ltac loop_run := repeat (progress loop_step).

(** X9. The block of lines 53-74 can never write data, whatever the
    global names hold when it starts: the loop body contains the uvcp
    check and the zeroing, so its first round either stops at the check
    with the message of line 60, or raises an exception ([KeyError] on 'v'
    for a uvcp file, since [data_dict] then holds 'u' only).  The block
    ends normally only when the field string is empty and the loop does
    not run. *)
Theorem X9_copy_loop_never_writes (w : world) :
  let r := copy_loop w in
  (log r.2 = log w ∨
   (r.1 = Exit 1 ∧
    log r.2 = log w ++ [EvErrMsg "c2w.py: expected fields uvcp, found something else"])) ∧
  (r.1 = Ok tt →
   ∃ f, globals w !! "ff" = Some (VFile f) ∧ fields (hdr f) = "").
Proof.
  destruct w as [g hp inp d c l]. unfold copy_loop. cbn zeta. loop_run.
  destruct (g !! "ff") as [[n|s|ss|f|arrs|dict]|] eqn:Hff; loop_run;
    try (split; [by left | by intros [=]]).
  destruct (fields (hdr f)) as [|ch rest] eqn:Hfields.
  { cbn. split; [by left|]. intros _. by exists f. }
  cbn [enumerate_from for_each]. loop_run.
  destruct (g !! "data") as [[n|s|ss|f'|arrs|dict]|] eqn:Hdata; loop_run;
    try (split; [by left | by intros [=]]).
  destruct arrs as [|a arrs]; loop_run; [split; [by left | by intros [=]]|].
  rewrite Hff. loop_run. rewrite Hfields.
  destruct (String.eqb (String ch rest) "uvcp") eqn:Heq; loop_run.
  - apply String.eqb_eq in Heq. injection Heq as -> ->. loop_run.
    split; [by left | by intros [=]].
  - split; [right; by split | by intros [=]].
Qed.

End ComposeMore.

(* ===================================================================== *)
(** * Further properties of wavy.py *)
(* ===================================================================== *)

Module WavyMore.
Import Wavy WavyProps.

(** ** What the two passes write, field by field *)

Lemma range_seqZ a b : range a b = seqZ (Z.of_nat a) (Z.of_nat (b - a)).
Proof.
  unfold range, seqZ. rewrite Nat2Z.id.
  rewrite <- (Nat.add_0_r a) at 1. rewrite <- fmap_add_seq.
  rewrite <- list_fmap_compose. apply list_fmap_ext. intros _ i _. cbn. lia.
Qed.

Section Projection.
Context {B : Type} (p : chunk → option B) (q : Z → Z → Z → option B).
Hypothesis p_curve : ∀ k e s i, p (Curve k e s i) = q e s i.
Hypothesis p_blank : p Blank = None.

Lemma curve_row_proj side edge i cols k out :
  omap p (curve_row side edge i cols (k, out)).2 =
    omap p out ++ omap (λ j, q (edge j) side i) cols.
Proof.
  revert k out. induction cols as [|j cols IH]; intros k out.
  - cbn. by rewrite app_nil_r.
  - unfold curve_row in *. cbn [fold_left fst snd].
    rewrite IH, omap_app. cbn [omap list_omap]. rewrite p_curve.
    rewrite <- app_assoc. f_equal. by destruct (q (edge j) side i).
Qed.

Lemma curve_pass_proj side edge rows cols k out :
  omap p (curve_pass side edge rows cols (k, out)).2 =
    omap p out ++ flat_map (λ i, omap (λ j, q (edge i j) side i) cols) rows.
Proof.
  revert k out. induction rows as [|i rows IH]; intros k out.
  - cbn. by rewrite app_nil_r.
  - unfold curve_pass in *. cbn [fold_left flat_map].
    pose proof (curve_row_proj side (edge i) i cols k out) as Hrow.
    destruct (curve_row side (edge i) i cols (k, out)) as [k1 out1].
    cbn [fst snd] in *.
    rewrite IH, omap_app, Hrow. cbn [omap list_omap]. rewrite p_blank.
    by rewrite app_nil_r, <- app_assoc.
Qed.

Hypothesis p_opening : ∀ n, p (Opening n) = None.
Hypothesis p_closing : p Closing = None.

Lemma curves_proj nx ny :
  omap p (curves nx ny) =
    flat_map (λ i, omap (λ j, q ((i - 1) * (Z.of_nat nx - 1) + j) 3 i) (range 1 nx))
             (range 1 ny) ++
    flat_map (λ i, omap (λ j, q (i * (Z.of_nat nx - 1) + j) 1 i) (range 1 nx))
             (range 1 (ny - 1)).
Proof.
  unfold curves. cbn zeta.
  pose proof (curve_pass_proj 3 (λ i j, (i - 1) * (Z.of_nat nx - 1) + j)
                (range 1 ny) (range 1 nx) 1
                [Opening ((Z.of_nat nx - 1) * (2 * (Z.of_nat ny - 2) + 1))]) as H1.
  destruct (curve_pass 3 _ (range 1 ny) (range 1 nx) _) as [k1 out1].
  pose proof (curve_pass_proj 1 (λ i j, i * (Z.of_nat nx - 1) + j)
                (range 1 (ny - 1)) (range 1 nx) k1 out1) as H2.
  destruct (curve_pass 1 _ (range 1 (ny - 1)) (range 1 nx) _) as [k2 out2].
  cbn [fst snd] in *.
  rewrite omap_app, H2, H1. cbn [omap list_omap].
  rewrite p_opening, p_closing. by rewrite app_nil_r.
Qed.

End Projection.

(** Row-major numbering: the rows [a, a+1, ...] of [m] columns, numbered
    [(i + c) * m + j], are numbered consecutively. *)
Lemma row_major (f : Z → Z → Z) (m c a : Z) (n : nat) :
  (0 ≤ m)%Z → (∀ i j, f i j = (i + c) * m + j) →
  flat_map (λ i, map (f i) (seqZ 1 m)) (seqZ a (Z.of_nat n)) =
    seqZ ((a + c) * m + 1) (Z.of_nat n * m).
Proof.
  intros Hm Hf. induction n as [|n IH].
  - cbn [Z.of_nat]. rewrite Z.mul_0_l. reflexivity.
  - rewrite seqZ_S, flat_map_app, IH. cbn [flat_map]. rewrite app_nil_r.
    replace (Z.of_nat (S n) * m) with (Z.of_nat n * m + m) by lia.
    rewrite seqZ_app by (try apply Z.mul_nonneg_nonneg; lia). f_equal.
    replace ((a + c) * m + 1 + Z.of_nat n * m)
      with ((a + Z.of_nat n + c) * m + 1) by lia.
    rewrite <- fmap_add_seqZ. apply map_ext. intros j. apply Hf.
Qed.

Lemma omap_total {A B} (f : A → B) (l : list A) :
  omap (λ a, Some (f a)) l = map f l.
Proof. induction l as [|a l IH]; [done|]. cbn. by rewrite IH. Qed.

Lemma in_range i a b : In i (range a b) ↔ (Z.of_nat a ≤ i < Z.of_nat b)%Z.
Proof.
  unfold range. rewrite in_map_iff. split.
  - intros (n & <- & Hn%in_seq). lia.
  - intros Hi. exists (Z.to_nat i). split; [lia|]. apply in_seq. lia.
Qed.

(** The rows of a pass, each repeated once per column. *)
Lemma in_rows_repeated (i : Z) (rows cols : list Z) :
  cols ≠ [] →
  In i (flat_map (λ r, omap (λ _ : Z, Some r) cols) rows) ↔ In i rows.
Proof.
  intros Hcols. rewrite in_flat_map. split.
  - intros (r & Hr & Hi). rewrite omap_total in Hi.
    apply in_map_iff in Hi as (_ & <- & _). done.
  - intros Hi. exists i. split; [done|]. rewrite omap_total.
    destruct cols as [|j cols]; [done|]. by left.
Qed.

(** ** Properties of the CURVES section *)

(** X10. For every grid with at least one x-sample and two y-samples the
    section declares the number of curves it writes, the curve IDs are
    1, 2, ... in the order written, and the curves are attached to the
    elements in row-major order: those of the first pass to the elements
    1, 2, ..., those of the second pass to the elements from the second
    row on (len(x), len(x)+1, ...). *)
Theorem X10_grid_numbering (nx ny : nat) :
  (1 ≤ nx)%nat → (2 ≤ ny)%nat →
  let m := Z.of_nat nx - 1 in
  let number := m * (2 * (Z.of_nat ny - 2) + 1) in
  declared_number (curves nx ny) = Some number ∧
  omap curve_id (curves nx ny) = seqZ 1 number ∧
  omap curve_edge (curves nx ny) =
    seqZ 1 ((Z.of_nat ny - 1) * m) ++ seqZ (m + 1) ((Z.of_nat ny - 2) * m).
Proof.
  intros Hnx Hny m number.
  destruct (curves_ids nx ny Hnx Hny) as [Hdeclared Hids].
  split; [exact Hdeclared|]. split; [exact Hids|].
  rewrite (curves_proj curve_edge (λ e _ _, Some e)) by done.
  rewrite !range_seqZ, !Nat2Z.inj_sub by lia.
  change (Z.of_nat 1) with 1. fold m.
  rewrite (flat_map_ext _ (λ i, map (λ j, (i - 1) * m + j) (seqZ 1 m)))
    by (intros i; apply omap_total).
  rewrite (flat_map_ext (λ i, omap _ _) (λ i, map (λ j, i * m + j) (seqZ 1 m)))
    by (intros i; apply omap_total).
  replace (Z.of_nat ny - 1) with (Z.of_nat (ny - 1)) by lia.
  replace (Z.of_nat (ny - 1) - 1) with (Z.of_nat (ny - 2)) by lia.
  rewrite (row_major (λ i j, (i - 1) * m + j) m (-1)) by (intros; lia).
  rewrite (row_major (λ i j, i * m + j) m 0) by (intros; lia).
  rewrite !Nat2Z.inj_sub by lia. f_equal; f_equal; lia.
Qed.

Lemma X10_grid_numbering_witness :
  (1 ≤ 4)%nat ∧ (2 ≤ 4)%nat ∧
  omap curve_edge (curves 4 4) = seqZ 1 9 ++ seqZ 4 6.
Proof.
  assert (Hx : (1 ≤ 4)%nat) by lia.
  assert (Hy : (2 ≤ 4)%nat) by lia.
  split; [exact Hx|]. split; [exact Hy|].
  destruct (X10_grid_numbering 4 4 Hx Hy) as (_ & _ & Hedges).
  exact Hedges.
Defined.

(** X11. The CURVES section refers to exactly the point-list files the
    script writes: a file index appears in a SPLINE entry iff it is one of
    the indices of the loop of line 93 (for at least two x-samples, so
    that a row has a curve). *)
Theorem X11_curves_reference_written_files {F : Type} (x y : list F) (i : Z) :
  (2 ≤ length x)%nat →
  (∃ c, In c (curves (length x) (length y)) ∧ curve_wave c = Some i) ↔
  In i (geo_indices y).
Proof.
  intros Hx.
  assert (Hcols : range 1 (length x) ≠ []).
  { intros Hnil. apply (f_equal (@length Z)) in Hnil.
    rewrite length_range in Hnil. cbn in Hnil. lia. }
  transitivity (In i (omap curve_wave (curves (length x) (length y)))).
  { rewrite <- list_elem_of_In, list_elem_of_omap.
    split; intros (c & Hc & Hw); exists c; split; try done;
      by apply list_elem_of_In. }
  rewrite (curves_proj curve_wave (λ _ _ i, Some i)) by done.
  rewrite in_app_iff, !in_rows_repeated by done.
  unfold geo_indices. rewrite !in_range. lia.
Qed.

Lemma X11_curves_reference_written_files_witness :
  (2 ≤ length (x_samples 2%float))%nat ∧
  In 14 (geo_indices (@y_samples float _)) ∧
  ∃ c, In c (curves (length (x_samples 2%float)) (length (@y_samples float _))) ∧
       curve_wave c = Some 14.
Proof.
  assert (Hx : (2 ≤ length (x_samples 2%float))%nat) by (vm_compute; lia).
  assert (Hin : In 14 (geo_indices (@y_samples float _))).
  { vm_compute. do 13 right. by left. }
  split; [exact Hx|]. split; [exact Hin|].
  exact (proj2 (X11_curves_reference_written_files (x_samples 2%float)
                  (@y_samples float _) 14 Hx) Hin).
Defined.

(** ** Edge behaviour of the samples *)

(** X12. beta_x = 0 is not rejected and raises nothing: in binary64 the
    division of line 46 gives NaN for the first x-sample (0/0) and
    +infinity for the ten others. *)
Theorem X12_beta_zero_gives_nan_and_infinities :
  x_samples 0%float = PrimFloat.nan :: replicate 10 PrimFloat.infinity.
Proof. vm_compute. reflexivity. Qed.

End WavyMore.
